(** * Mark.utils: validation, compression and schema check of a Mark

    Shallow embedding of [packages/modules/src/mark/Mark.utils.ts]:
    [errorCheck], [compress], [decompress] and [verifyStructure].

    The four functions are glue around collaborators that live in sibling
    modules ([Stream.utils], [ContentStream.utils], [Mark], [Schema.utils]).
    The collaborators are parameters of the development; the glue is written
    once, over any monad with exceptions, and then read
    - in the exception monad [result] (collaborators without side effects),
    - in the monad [eff W] (collaborators that may also change a world [W]).

    [createDid] of [demo/src/utils/generateDid.ts] is embedded the same way,
    over the SDK calls it makes. *)

From stdpp Require Import base option list strings gmap.

Open Scope string_scope.

(** ** JavaScript values *)

(** A JavaScript number, up to what the code can observe: the truthiness
    test separates [NaN], [+0] (here [Num 0]) and [-0] from every other
    number; a number that is not integral is tested as any nonzero one. *)
Inductive number :=
  | NaN
  | NegZero
  | Num (z : Z).

#[warnings="-register-all"]
Inductive value :=
  | VUndefined
  | VNull
  | VBool (b : bool)
  | VNumber (n : number)
  | VString (s : string)
  | VArray (elems : list value)
  | VObject (props : gmap string value).

(** An object is its table of own properties. *)
Abbreviation obj := (gmap string value).

(** [ToBoolean]: what [if (v)] tests. *)
Definition truthy (v : value) : bool :=
  match v with
  | VUndefined | VNull => false
  | VBool b => b
  | VNumber NaN | VNumber NegZero => false
  | VNumber (Num z) => negb (z =? 0)%Z
  | VString s => negb (String.eqb s "")
  | VArray _ | VObject _ => true
  end.

(** [o.k] on an object: a missing property reads as [undefined]. *)
Definition prop (o : obj) (k : string) : value := default VUndefined (o !! k).

(** [Array.isArray(v)], [v.length] and [v[i]] on an array. *)
Definition Array_isArray (v : value) : bool :=
  match v with VArray _ => true | _ => false end.

Definition elements (v : value) : list value :=
  match v with VArray l => l | _ => [] end.

Definition index (v : value) (i : nat) : value :=
  default VUndefined (elements v !! i).

(** ** Errors *)

(** The four [SDKErrors] that [Mark.utils] constructs, the [TypeError] of a
    property read on [undefined] or [null], and [Foreign] for whatever else a
    collaborator throws.  A collaborator may throw any [error]. *)
Inductive error :=
  | ERROR_CONTENT_NOT_PROVIDED
  | ERROR_MC_NOT_PROVIDED
  | ERROR_CONTENT_UNVERIFIABLE
  | ERROR_DECOMPRESSION_ARRAY (type : string)
  | TypeError
  | Foreign (name : string).

(** ** The collaborators *)

Module Entity.
(** What [Mark.utils] uses of [Stream.utils] and of [ContentStream.utils]:
    a validator that throws on bad input, and a codec. *)
Record utils (M : Type → Type) := Utils {
  errorCheck : value → M unit;
  compress : value → M value;
  decompress : value → M value;
}.
Arguments Utils {M} _ _ _.
Arguments errorCheck {M} _ _.
Arguments compress {M} _ _.
Arguments decompress {M} _ _.
End Entity.

Record imports (M : Type → Type) := Imports {
  StreamUtils : Entity.utils M;
  MarkContentUtils : Entity.utils M;
  Mark_verifyData : obj → M bool;
  SchemaUtils_verifyContentProperties : value → value → M bool;
}.
Arguments Imports {M} _ _ _ _.
Arguments StreamUtils {M} _.
Arguments MarkContentUtils {M} _.
Arguments Mark_verifyData {M} _ _.
Arguments SchemaUtils_verifyContentProperties {M} _ _ _.

(** ** Mark.utils *)

Module MarkUtils.
Section Glue.
Context {M : Type → Type} `{!MRet M, !MBind M, !MThrow error M}.
Variable I : imports M.

(** [v.k] on any value: [undefined] and [null] have no properties, and
    reading one throws.  The keys read by this module ([content],
    [contents]) are own properties of objects only. *)
Definition member (v : value) (k : string) : M value :=
  match v with
  | VUndefined | VNull => mthrow TypeError
  | VObject o => mret (prop o k)
  | _ => mret VUndefined
  end.

Definition errorCheck (input : obj) : M unit :=
  (if truthy (prop input "content")
   then Entity.errorCheck (StreamUtils I) (prop input "content")
   else mthrow ERROR_CONTENT_NOT_PROVIDED) ;;
  (if truthy (prop input "request")
   then Entity.errorCheck (MarkContentUtils I) (prop input "request")
   else mthrow ERROR_MC_NOT_PROVIDED) ;;
  verified ← Mark_verifyData I input ;
  if negb verified then mthrow ERROR_CONTENT_UNVERIFIABLE else mret tt.

Definition compress (stream : obj) : M value :=
  errorCheck stream ;;
  request ← Entity.compress (MarkContentUtils I) (prop stream "request") ;
  content ← Entity.compress (StreamUtils I) (prop stream "content") ;
  mret (VArray [request; content]).

Definition decompress (stream : value) : M obj :=
  if negb (Array_isArray stream) || negb (Nat.eqb (length (elements stream)) 2)
  then mthrow (ERROR_DECOMPRESSION_ARRAY "Cord Mark")
  else
    request ← Entity.decompress (MarkContentUtils I) (index stream 0) ;
    content ← Entity.decompress (StreamUtils I) (index stream 1) ;
    mret ({[ "request" := request; "content" := content ]} : obj).

Definition verifyStructure (mark schema : obj) : M bool :=
  errorCheck mark ;;
  content ← member (prop mark "request") "content" ;
  contents ← member content "contents" ;
  SchemaUtils_verifyContentProperties I contents (prop schema "schema").
End Glue.
End MarkUtils.

(** ** Two readings of the glue *)

(** Exceptions only: a call returns a value or throws. *)
Inductive result (A : Type) :=
  | Ok (a : A)
  | Err (e : error).
Arguments Ok {A} a.
Arguments Err {A} e.

Global Instance result_ret : MRet result := @Ok.
Global Instance result_bind : MBind result :=
  λ A B f r, match r with Ok a => f a | Err e => Err e end.
Global Instance result_throw : MThrow error result := @Err.

(** Exceptions and a world [W] (the heap, a call log, ...): a call returns or
    throws, and leaves a world behind either way. *)
Definition eff (W A : Type) : Type := W → result A * W.

Global Instance eff_ret {W} : MRet (eff W) := λ A a w, (Ok a, w).
Global Instance eff_bind {W} : MBind (eff W) :=
  λ A B f m w, match m w with
               | (Ok a, w') => f a w'
               | (Err e, w') => (Err e, w')
               end.
Global Instance eff_throw {W} : MThrow error (eff W) := λ A e w, (Err e, w).

(** Collaborators without side effects.  The validators and the codecs may
    throw; [Mark.verifyData] and [SchemaUtils.verifyContentProperties] are
    declared to return a boolean. *)
Definition pure_imports (Stream ContentStream : Entity.utils result)
    (verifyData : obj → bool)
    (verifyContentProperties : value → value → bool) : imports result :=
  Imports Stream ContentStream
    (λ mark, Ok (verifyData mark))
    (λ contents schema, Ok (verifyContentProperties contents schema)).

(** ** Sample collaborators, for the examples *)

Module Sample.
(** A validator that wants an object with a truthy [id]. *)
Definition check (name : string) (v : value) : result unit :=
  match v with
  | VObject o => if truthy (prop o "id") then Ok tt else Err (Foreign name)
  | _ => Err (Foreign name)
  end.

(** A codec that stores an object as [[id, rest]], the [id] first and
    the other properties after it. *)
Definition pack (name : string) (v : value) : result value :=
  check name v ;;
  match v with
  | VObject o => Ok (VArray [prop o "id"; VObject (delete "id" o)])
  | _ => Err TypeError
  end.

Definition unpack (name : string) (v : value) : result value :=
  if negb (Array_isArray v) || negb (Nat.eqb (length (elements v)) 2)
  then Err (ERROR_DECOMPRESSION_ARRAY name)
  else match index v 1 with
       | VObject rest => Ok (VObject (<["id" := index v 0]> rest))
       | _ => Err (Foreign name)
       end.

Definition Stream : Entity.utils result :=
  Entity.Utils (check "ERROR_STREAM") (pack "ERROR_STREAM") (unpack "Stream").
Definition ContentStream : Entity.utils result :=
  Entity.Utils (check "ERROR_REQUEST") (pack "ERROR_REQUEST") (unpack "Request").

(** The cross check: both sides carry the same [id]. *)
Definition same_id (a b : value) : bool :=
  match a, b with
  | VString s, VString t => String.eqb s t
  | _, _ => false
  end.

Definition verifyData (mark : obj) : bool :=
  match prop mark "request", prop mark "content" with
  | VObject r, VObject c => same_id (prop r "id") (prop c "id")
  | _, _ => false
  end.

(** The schema matcher: the contents are an object. *)
Definition verifyContentProperties (contents schema : value) : bool :=
  match contents with VObject _ => true | _ => false end.

Definition I : imports result :=
  pure_imports Stream ContentStream verifyData verifyContentProperties.

Definition entity (id : string) (body : value) : value :=
  VObject {[ "id" := VString id; "body" := body ]}.

Definition entity_id (id : string) : value := VObject {[ "id" := VString id ]}.

Definition content : value := entity "m1" (VString "payload").
Definition request : value :=
  VObject {[ "id" := VString "m1"; "body" := VNull;
             "content" := VObject {[ "contents" := VObject {[ "name" := VString "A" ]} ]} ]}.

Definition mark : obj := {[ "request" := request; "content" := content ]}.

Definition packed_content : value :=
  VArray [VString "m1"; VObject {[ "body" := VString "payload" ]}].
Definition packed_request : value :=
  VArray [VString "m1";
          VObject {[ "body" := VNull;
                     "content" := VObject {[ "contents" := VObject {[ "name" := VString "A" ]} ]} ]}].
Definition schema : obj := {[ "schema" := VObject ∅ ]}.

(** A Mark without [content], one whose [content] the validator rejects
    and whose [request] is [null], and a well-shaped pair that no
    [compress] call produced. *)
Definition no_content : obj := {[ "request" := request ]}.
Definition rejected_content : obj :=
  {[ "content" := VObject ∅; "request" := VNull ]}.
Definition forged_pair : value :=
  VArray [VArray [VString "m1"; VObject ∅]; VArray [VString "m2"; VObject ∅]].

(** Collaborators of the world monad that log every call. *)
Definition logged {A} (tag : string) (r : result A) : eff (list string) A :=
  λ w, (r, (w ++ [tag])%list).

Definition logging_utils (tag : string) (P : Entity.utils result)
    : Entity.utils (eff (list string)) :=
  Entity.Utils (λ v, logged (tag +:+ ".errorCheck") (Entity.errorCheck P v))
               (λ v, logged (tag +:+ ".compress") (Entity.compress P v))
               (λ v, logged (tag +:+ ".decompress") (Entity.decompress P v)).

Definition L : imports (eff (list string)) :=
  Imports (logging_utils "StreamUtils" Stream)
          (logging_utils "MarkContentUtils" ContentStream)
          (λ m, logged "Mark.verifyData" (Ok (verifyData m)))
          (λ c s, logged "SchemaUtils.verifyContentProperties"
                         (Ok (verifyContentProperties c s))).
End Sample.

(** ** Vocabulary of the specification *)

(** The round-trip law of a collaborator's codec: what its validator accepts
    is compressed, and decompressing that gives the value back. *)
Definition round_trip (U : Entity.utils result) : Prop :=
  ∀ x, Entity.errorCheck U x = Ok tt →
       ∃ c, Entity.compress U x = Ok c ∧ Entity.decompress U c = Ok x.

(** A collaborator's encoder does not throw on what its validator accepts. *)
Definition encodes_valid (U : Entity.utils result) : Prop :=
  ∀ x, Entity.errorCheck U x = Ok tt → ∃ c, Entity.compress U x = Ok c.

(** An object with no property besides the two of the interface [IMark]. *)
Definition IMark_shaped (m : obj) : Prop :=
  ∀ k, is_Some (m !! k) → k = "request" ∨ k = "content".

(** The name of an entity closes the text handed to an error. *)
Definition names_entity (entity text : string) : Prop :=
  ∃ qualifier, text = qualifier +:+ entity.

(** A compressed entity [a] that the collaborator's encoder gives back from
    what its decoder reads in it. *)
Definition re_encodes (U : Entity.utils result) (a : value) : Prop :=
  ∀ x, Entity.decompress U a = Ok x → Entity.compress U x = Ok a.

(** The logging sample collaborators, with a [verifyData] that throws. *)
Module Faulty.
Definition L : imports (eff (list string)) :=
  Imports (StreamUtils Sample.L) (MarkContentUtils Sample.L)
          (λ m, Sample.logged "Mark.verifyData"
                  (Err (Foreign "ERROR_ROOT_HASH_UNVERIFIABLE")))
          (SchemaUtils_verifyContentProperties Sample.L).
End Faulty.

(** ** generateDid *)

(** What [demo/src/utils/generateDid.ts] calls: the SDK ([Cord.ConfigService],
    [Cord.Did], [Cord.Chain]), [mnemonicGenerate] of the crypto utilities,
    the demo's own [generateKeypairs], and two methods of objects it is
    handed, [key.sign(data)] and [api.call.did.query(x)] (the receiver comes
    first).  An awaited call is a call: a rejected promise is a throw. *)
Record sdk (M : Type → Type) := Sdk {
  ConfigService_get : string → M value;
  mnemonicGenerate : M value;
  generateKeypairs : value → M value;
  Did_getStoreTx : value → value → (value → M value) → M value;
  Chain_signAndSubmitTx : value → value → M value;
  Did_getDidUriFromKey : value → M value;
  Did_toChain : value → M value;
  Did_linkedInfoFromChain : value → M value;
  sign : value → value → M value;
  query : value → value → M value;
}.
Arguments Sdk {M} _ _ _ _ _ _ _ _ _ _.
Arguments ConfigService_get {M} _ _.
Arguments mnemonicGenerate {M} _.
Arguments generateKeypairs {M} _ _.
Arguments Did_getStoreTx {M} _ _ _ _.
Arguments Chain_signAndSubmitTx {M} _ _ _.
Arguments Did_getDidUriFromKey {M} _ _.
Arguments Did_toChain {M} _ _.
Arguments Did_linkedInfoFromChain {M} _ _.
Arguments sign {M} _ _ _.
Arguments query {M} _ _ _.

Module GenerateDid.
Section Glue.
Context {M : Type → Type} `{!MRet M, !MBind M, !MThrow error M}.
Variable Env : sdk M.

(** The example service of the DID. *)
Definition service : value :=
  VObject {[ "id" := VString "#my-service";
             "type" := VArray [VString "service-type"];
             "serviceEndpoint" := VArray [VString "https://www.example.com"] ]}.

(** The signing callback handed to [Did.getStoreTx]:
    [async ({ data }) => ({ signature: authentication.sign(data),
                            keyType: authentication.type })]. *)
Definition signCallback (authentication arg : value) : M value :=
  data ← MarkUtils.member arg "data" ;
  MarkUtils.member authentication "sign" ;;
  signature ← sign Env authentication data ;
  keyType ← MarkUtils.member authentication "type" ;
  mret (VObject {[ "signature" := signature; "keyType" := keyType ]}).

(** [createDid].  The plain [Error] that it throws is written [Foreign]
    with its message.  Reading [api.call.did.query] comes before the
    argument [Did.toChain(didUri)] is evaluated. *)
Definition createDid (submitterAccount : obj) : M obj :=
  api ← ConfigService_get Env "api" ;
  mnemonic ← mnemonicGenerate Env ;
  keys ← generateKeypairs Env mnemonic ;
  authentication ← MarkUtils.member keys "authentication" ;
  keyAgreement ← MarkUtils.member keys "keyAgreement" ;
  assertionMethod ← MarkUtils.member keys "assertionMethod" ;
  capabilityDelegation ← MarkUtils.member keys "capabilityDelegation" ;
  didCreationTx ←
    Did_getStoreTx Env
      (VObject {[ "authentication" := VArray [authentication];
                  "keyAgreement" := VArray [keyAgreement];
                  "assertionMethod" := VArray [assertionMethod];
                  "capabilityDelegation" := VArray [capabilityDelegation];
                  "service" := VArray [service] ]})
      (prop submitterAccount "address")
      (signCallback authentication) ;
  Chain_signAndSubmitTx Env didCreationTx (VObject submitterAccount) ;;
  didUri ← Did_getDidUriFromKey Env authentication ;
  call ← MarkUtils.member api "call" ;
  did ← MarkUtils.member call "did" ;
  MarkUtils.member did "query" ;;
  chainDid ← Did_toChain Env didUri ;
  encodedDid ← query Env did chainDid ;
  info ← Did_linkedInfoFromChain Env encodedDid ;
  document ← MarkUtils.member info "document" ;
  if negb (truthy document)
  then mthrow (Foreign "DID was not successfully created.")
  else mret ({[ "mnemonic" := mnemonic; "document" := document ]} : obj).
End Glue.
End GenerateDid.

(** A sample SDK that logs every call.  [accepted]: the chain takes the
    transaction; [found]: the chain knows the DID afterwards. *)
Module SampleDid.
Definition keypair (role : string) : value :=
  VObject {[ "type" := VString "sr25519"; "role" := VString role ]}.

Definition keypairs : obj :=
  {[ "authentication" := keypair "authentication";
     "keyAgreement" := keypair "keyAgreement";
     "assertionMethod" := keypair "assertionMethod";
     "capabilityDelegation" := keypair "capabilityDelegation" ]}.

Definition did : obj := {[ "section" := VString "did" ]}.
Definition call : obj := {[ "did" := VObject did ]}.
Definition api : obj := {[ "call" := VObject call ]}.
Definition account : obj := {[ "address" := VString "3wF" ]}.
Definition mnemonic : value := VString "abandon ability able".
Definition document : value := VObject {[ "uri" := VString "did:cord:3wF" ]}.

Definition info (found : bool) : obj :=
  if found then {[ "document" := document ]} else ∅.

Definition input : value :=
  VObject {[ "authentication" := VArray [keypair "authentication"];
             "keyAgreement" := VArray [keypair "keyAgreement"];
             "assertionMethod" := VArray [keypair "assertionMethod"];
             "capabilityDelegation" := VArray [keypair "capabilityDelegation"];
             "service" := VArray [GenerateDid.service] ]}.

Definition signed : value :=
  VObject {[ "signature" := VString "0xsigned"; "keyType" := VString "sr25519" ]}.

Definition tx : value :=
  VObject {[ "call" := input; "submitter" := VString "3wF"; "signed" := signed ]}.

(** [getStoreTx] has the callback sign the call data. *)
Definition getStoreTx (input address : value)
    (signCallback : value → eff (list string) value) : eff (list string) value :=
  Sample.logged "Did.getStoreTx" (Ok tt) ;;
  signed ← signCallback (VObject {[ "data" := VString "0xcall" ]}) ;
  mret (VObject {[ "call" := input; "submitter" := address; "signed" := signed ]}).

Definition Env (accepted found : bool) : sdk (eff (list string)) :=
  Sdk (λ key, Sample.logged "ConfigService.get" (Ok (VObject api)))
      (Sample.logged "mnemonicGenerate" (Ok mnemonic))
      (λ mnemonic, Sample.logged "generateKeypairs" (Ok (VObject keypairs)))
      getStoreTx
      (λ tx account,
         Sample.logged "Chain.signAndSubmitTx"
           (if accepted then Ok VUndefined else Err (Foreign "ERROR_TRANSACTION")))
      (λ key, Sample.logged "Did.getDidUriFromKey" (Ok (VString "did:cord:3wF")))
      (λ uri, Sample.logged "Did.toChain" (Ok (VString "3wF")))
      (λ encoded, Sample.logged "Did.linkedInfoFromChain" (Ok (VObject (info found))))
      (λ key data, Sample.logged "authentication.sign" (Ok (VString "0xsigned")))
      (λ receiver did, Sample.logged "api.call.did.query" (Ok (VString "0xencoded"))).

Definition log_to_tx : list string :=
  ["ConfigService.get"; "mnemonicGenerate"; "generateKeypairs";
   "Did.getStoreTx"; "authentication.sign"].
Definition log_to_submit : list string := (log_to_tx ++ ["Chain.signAndSubmitTx"])%list.
Definition log_to_info : list string :=
  (log_to_submit ++ ["Did.getDidUriFromKey"; "Did.toChain"; "api.call.did.query";
                     "Did.linkedInfoFromChain"])%list.
End SampleDid.

Import MarkUtils.

(** ** Unfolding the glue *)

Ltac run_glue :=
  unfold verifyStructure, compress, decompress, errorCheck, member,
         mbind, mret, mthrow,
         eff_bind, eff_ret, eff_throw, result_bind, result_ret, result_throw.

(** ** The sample collaborators at work *)

Example sample_errorCheck : errorCheck Sample.I Sample.mark = Ok tt.
Proof. vm_compute. reflexivity. Qed.

Example sample_compress :
  compress Sample.I Sample.mark =
  Ok (VArray [Sample.packed_request; Sample.packed_content]).
Proof. vm_compute. reflexivity. Qed.

Example sample_verifyStructure :
  verifyStructure Sample.I Sample.mark Sample.schema = Ok true.
Proof. vm_compute. reflexivity. Qed.

Example sample_log :
  compress Sample.L Sample.mark [] =
  (Ok (VArray [Sample.packed_request; Sample.packed_content]),
   ["StreamUtils.errorCheck"; "MarkContentUtils.errorCheck"; "Mark.verifyData";
    "MarkContentUtils.compress"; "StreamUtils.compress"]).
Proof. vm_compute. reflexivity. Qed.

(** ** Basic facts *)

(** A truthy value is not [undefined] or [null]: reading a property of it
    does not throw. *)
Lemma member_truthy (v : value) (k : string) :
  truthy v = true → ∃ x, member (M := result) v k = Ok x.
Proof.
  destruct v; simpl; try discriminate; intros _; run_glue; eauto.
Qed.

Lemma member_nullish (v : value) (k : string) :
  v = VUndefined ∨ v = VNull → member (M := result) v k = Err TypeError.
Proof. intros [-> | ->]; reflexivity. Qed.

Lemma prop_falsy_absent (o : obj) (k : string) :
  o !! k = None → truthy (prop o k) = false.
Proof. unfold prop. intros ->. reflexivity. Qed.

Lemma prop_truthy_present (o : obj) (k : string) :
  truthy (prop o k) = true → o !! k = Some (prop o k).
Proof. unfold prop. destruct (o !! k); simpl; [reflexivity | discriminate]. Qed.

(** The shape of a compressed Mark: an array of exactly two elements. *)
Lemma pair_shape (stream : value) :
  negb (Array_isArray stream) || negb (Nat.eqb (length (elements stream)) 2) = false
  ↔ ∃ a b, stream = VArray [a; b].
Proof.
  split.
  - destruct stream as [| | | | | l |]; simpl; try discriminate.
    destruct l as [| a [| b [| c l]]]; simpl; try discriminate. eauto.
  - intros (a & b & ->). reflexivity.
Qed.

Lemma not_pair_shape (stream : value) :
  (∀ a b, stream ≠ VArray [a; b]) →
  negb (Array_isArray stream) || negb (Nat.eqb (length (elements stream)) 2) = true.
Proof.
  intros Hshape.
  destruct (negb (Array_isArray stream) || _) eqn:Htest; [reflexivity |].
  apply pair_shape in Htest as (a & b & ->). destruct (Hshape a b eq_refl).
Qed.

Section Pure.
Variables Stream ContentStream : Entity.utils result.
Variable verifyData : obj → bool.
Variable verifyContentProperties : value → value → bool.

Local Abbreviation I :=
  (pure_imports Stream ContentStream verifyData verifyContentProperties).

Lemma errorCheck_unfold (input : obj) :
  errorCheck I input =
    if truthy (prop input "content") then
      match Entity.errorCheck Stream (prop input "content") with
      | Err e => Err e
      | Ok _ =>
          if truthy (prop input "request") then
            match Entity.errorCheck ContentStream (prop input "request") with
            | Err e => Err e
            | Ok _ =>
                if verifyData input then Ok tt
                else Err ERROR_CONTENT_UNVERIFIABLE
            end
          else Err ERROR_MC_NOT_PROVIDED
      end
    else Err ERROR_CONTENT_NOT_PROVIDED.
Proof.
  unfold errorCheck. cbn.
  destruct (truthy (prop input "content")); [| reflexivity].
  cbn. destruct (Entity.errorCheck Stream _); [| reflexivity].
  destruct (truthy (prop input "request")); [| reflexivity].
  cbn. destruct (Entity.errorCheck ContentStream _); [| reflexivity].
  cbn. destruct (verifyData input); reflexivity.
Qed.

Lemma errorCheck_passes (input : obj) :
  errorCheck I input = Ok tt ↔
    truthy (prop input "content") = true ∧
    Entity.errorCheck Stream (prop input "content") = Ok tt ∧
    truthy (prop input "request") = true ∧
    Entity.errorCheck ContentStream (prop input "request") = Ok tt ∧
    verifyData input = true.
Proof.
  rewrite errorCheck_unfold. split.
  - destruct (truthy (prop input "content")); [| discriminate].
    destruct (Entity.errorCheck Stream _) as [[] |]; [| discriminate].
    destruct (truthy (prop input "request")); [| discriminate].
    destruct (Entity.errorCheck ContentStream _) as [[] |]; [| discriminate].
    destruct (verifyData input); [| discriminate].
    intros _. repeat split.
  - intros (-> & -> & -> & -> & ->). reflexivity.
Qed.

Lemma compress_propagates (stream : obj) (e : error) :
  errorCheck I stream = Err e → compress I stream = Err e.
Proof. unfold compress. intros ->. reflexivity. Qed.

Lemma compress_checked (stream : obj) :
  errorCheck I stream = Ok tt →
  compress I stream =
    (request ← Entity.compress ContentStream (prop stream "request") ;
     content ← Entity.compress Stream (prop stream "content") ;
     Ok (VArray [request; content])).
Proof. unfold compress. intros ->. reflexivity. Qed.

Lemma decompress_pair (a b : value) :
  decompress I (VArray [a; b]) =
    (request ← Entity.decompress ContentStream a ;
     content ← Entity.decompress Stream b ;
     Ok ({[ "request" := request; "content" := content ]} : obj)).
Proof. reflexivity. Qed.

Lemma decompress_malformed (stream : value) :
  (∀ a b, stream ≠ VArray [a; b]) →
  decompress I stream = Err (ERROR_DECOMPRESSION_ARRAY "Cord Mark").
Proof.
  intros Hshape. unfold decompress.
  rewrite (not_pair_shape stream Hshape). reflexivity.
Qed.

Lemma verifyStructure_propagates (mark schema : obj) (e : error) :
  errorCheck I mark = Err e → verifyStructure I mark schema = Err e.
Proof. unfold verifyStructure. intros ->. reflexivity. Qed.

Lemma verifyStructure_checked (mark schema : obj) :
  errorCheck I mark = Ok tt →
  verifyStructure I mark schema =
    (content ← member (prop mark "request") "content" ;
     contents ← member content "contents" ;
     Ok (verifyContentProperties contents (prop schema "schema"))).
Proof. unfold verifyStructure. intros ->. reflexivity. Qed.

(** *** errorCheck *)

(** C2. [errorCheck] completes exactly when [content] is provided (truthy,
    the test the code makes) and accepted by the content-stream validator,
    [request] is provided and accepted by the request validator, and
    [verifyData] answers [true].  Every failure has one cause, tried in
    this order, each only after the earlier steps have passed: a missing
    [content] gives [ERROR_CONTENT_NOT_PROVIDED], an error of the content
    validator comes out unchanged, a missing [request] gives
    [ERROR_MC_NOT_PROVIDED], an error of the request validator comes out
    unchanged, and a [false] from [verifyData] gives
    [ERROR_CONTENT_UNVERIFIABLE]. *)
Theorem errorCheck_outcome (input : obj) :
  let content := prop input "content" in
  let request := prop input "request" in
  (errorCheck I input = Ok tt ↔
     truthy content = true ∧ Entity.errorCheck Stream content = Ok tt ∧
     truthy request = true ∧ Entity.errorCheck ContentStream request = Ok tt ∧
     verifyData input = true)
  ∧ (∀ e, errorCheck I input = Err e ↔
       (truthy content = false ∧ e = ERROR_CONTENT_NOT_PROVIDED)
     ∨ (truthy content = true ∧ Entity.errorCheck Stream content = Err e)
     ∨ (truthy content = true ∧ Entity.errorCheck Stream content = Ok tt ∧
        truthy request = false ∧ e = ERROR_MC_NOT_PROVIDED)
     ∨ (truthy content = true ∧ Entity.errorCheck Stream content = Ok tt ∧
        truthy request = true ∧ Entity.errorCheck ContentStream request = Err e)
     ∨ (truthy content = true ∧ Entity.errorCheck Stream content = Ok tt ∧
        truthy request = true ∧ Entity.errorCheck ContentStream request = Ok tt ∧
        verifyData input = false ∧ e = ERROR_CONTENT_UNVERIFIABLE)).
Proof.
  intros content request. split; [apply errorCheck_passes |].
  intros e. rewrite errorCheck_unfold. fold content request.
  destruct (truthy content).
  2: { split; [intros [= <-]; auto | intros [[_ ->] | H]; [reflexivity |]].
       destruct H as [[? _] | [[? _] | [[? _] | [? _]]]]; discriminate. }
  destruct (Entity.errorCheck Stream content) as [[] | e1].
  2: { split; [intros [= <-]; auto |].
       intros [[? _] | [[_ [= ->]] | H]]; [discriminate | reflexivity |].
       destruct H as [(_ & ? & _) | [(_ & ? & _) | (_ & ? & _)]]; discriminate. }
  destruct (truthy request).
  2: { split; [intros [= <-]; auto 10 |].
       intros [[? _] | [[_ ?] | [(_ & _ & _ & ->) | H]]];
         [discriminate | discriminate | reflexivity |].
       destruct H as [(_ & _ & ? & _) | (_ & _ & ? & _)]; discriminate. }
  destruct (Entity.errorCheck ContentStream request) as [[] | e2].
  2: { split; [intros [= <-]; auto 10 |].
       intros [[? _] | [[_ ?] | [(_ & _ & ? & _) | [(_ & _ & _ & [= ->]) | H]]]];
         [discriminate | discriminate | discriminate | reflexivity |].
       destruct H as (_ & _ & _ & ? & _); discriminate. }
  destruct (verifyData input).
  - split; [discriminate |].
    intros [[? _] | [[_ ?] | [(_ & _ & ? & _) | [(_ & _ & _ & ?) | H]]]];
      try discriminate.
    destruct H as (_ & _ & _ & _ & ? & _); discriminate.
  - split; [intros [= <-]; auto 10 |].
    intros [[? _] | [[_ ?] | [(_ & _ & ? & _) | [(_ & _ & _ & ?) | H]]]];
      try discriminate.
    destruct H as (_ & _ & _ & _ & _ & ->); reflexivity.
Qed.

(** C10, as the code has it.  The test on [content] and on [request] is
    truthiness: [null], [undefined], [0], the empty string and [false] count
    as a field that is not there.  A Mark with falsy [content] fails with
    [ERROR_CONTENT_NOT_PROVIDED]; a Mark with truthy [content] that the
    content-stream validator accepts and falsy [request] fails with
    [ERROR_MC_NOT_PROVIDED]. *)
Theorem errorCheck_truthiness (input : obj) :
  Forall (λ v, truthy v = false)
         [VNull; VUndefined; VNumber (Num 0); VString ""; VBool false]
  ∧ (truthy (prop input "content") = false →
     errorCheck I input = Err ERROR_CONTENT_NOT_PROVIDED)
  ∧ (truthy (prop input "content") = true →
     Entity.errorCheck Stream (prop input "content") = Ok tt →
     truthy (prop input "request") = false →
     errorCheck I input = Err ERROR_MC_NOT_PROVIDED).
Proof.
  split; [repeat constructor |].
  rewrite errorCheck_unfold. split.
  - intros ->. reflexivity.
  - intros -> -> ->. reflexivity.
Qed.

(** *** compress *)

(** C4. Where the collaborators' encoders do not throw on validated
    values, [compress] fails exactly when [errorCheck] fails, with the same
    error; and when [errorCheck] passes it returns the array of two
    elements, the compressed [request] at position 0 and the compressed
    [content] at position 1. *)
Theorem compress_outcome (mark : obj) :
  encodes_valid ContentStream → encodes_valid Stream →
  (∀ e, compress I mark = Err e ↔ errorCheck I mark = Err e)
  ∧ (errorCheck I mark = Ok tt →
     ∃ request content,
       Entity.compress ContentStream (prop mark "request") = Ok request ∧
       Entity.compress Stream (prop mark "content") = Ok content ∧
       compress I mark = Ok (VArray [request; content]) ∧
       index (VArray [request; content]) 0 = request ∧
       index (VArray [request; content]) 1 = content ∧
       length (elements (VArray [request; content])) = 2).
Proof.
  intros Hrequest Hcontent.
  assert (Hok : errorCheck I mark = Ok tt →
                ∃ request content,
                  Entity.compress ContentStream (prop mark "request") = Ok request ∧
                  Entity.compress Stream (prop mark "content") = Ok content ∧
                  compress I mark = Ok (VArray [request; content])).
  { intros Hcheck. rewrite (compress_checked _ Hcheck).
    apply errorCheck_passes in Hcheck as (_ & Hc & _ & Hr & _).
    destruct (Hrequest _ Hr) as [r Er], (Hcontent _ Hc) as [c Ec].
    exists r, c. rewrite Er, Ec. auto. }
  split.
  - intros e. split; [| apply compress_propagates].
    destruct (errorCheck I mark) as [[] | e'] eqn:Hcheck.
    + destruct (Hok eq_refl) as (r & c & _ & _ & ->). discriminate.
    + rewrite (compress_propagates _ _ Hcheck). intros [= ->]. reflexivity.
  - intros Hcheck. destruct (Hok Hcheck) as (r & c & ? & ? & ?).
    exists r, c. auto 10.
Qed.

(** *** decompress *)

(** C5. An input that is not an array of exactly two elements (an array of
    another length, or no array at all) makes [decompress] fail with
    [ERROR_DECOMPRESSION_ARRAY].  On an array of exactly two elements
    [decompress] is the object literal
    [{ request: decode(input[0]), content: decode(input[1]) }]: the two
    decoders run in this order, and with their results [request] and
    [content] the object of these two properties is returned. *)
Theorem decompress_outcome (stream : value) :
  ((∀ a b, stream ≠ VArray [a; b]) →
   ∃ type, decompress I stream = Err (ERROR_DECOMPRESSION_ARRAY type))
  ∧ (∀ a b, stream = VArray [a; b] →
     decompress I stream =
       (request ← Entity.decompress ContentStream (index stream 0) ;
        content ← Entity.decompress Stream (index stream 1) ;
        Ok ({[ "request" := request; "content" := content ]} : obj))
     ∧ ∀ request content,
         Entity.decompress ContentStream a = Ok request →
         Entity.decompress Stream b = Ok content →
         decompress I stream =
           Ok {[ "request" := request; "content" := content ]}).
Proof.
  split.
  - intros Hshape. eexists. apply decompress_malformed, Hshape.
  - intros a b ->. split; [reflexivity |].
    intros request content Hr Hc.
    rewrite decompress_pair, Hr. cbn. rewrite Hc. reflexivity.
Qed.

(** C6. The error that [decompress] raises on a malformed shape is
    [ERROR_DECOMPRESSION_ARRAY] built with the text ["Cord Mark"], which
    names the Mark entity. *)
Theorem decompress_error_names_Mark (stream : value) :
  (∀ a b, stream ≠ VArray [a; b]) →
  ∃ type, decompress I stream = Err (ERROR_DECOMPRESSION_ARRAY type)
          ∧ type = "Cord Mark" ∧ names_entity "Mark" type.
Proof.
  intros Hshape. exists "Cord Mark".
  split; [apply decompress_malformed, Hshape |].
  split; [reflexivity |]. exists "Cord ". reflexivity.
Qed.

(** *** verifyStructure *)

(** C7. [verifyStructure] runs [errorCheck] first: on a Mark that
    [errorCheck] refuses it fails with the same error.  On a Mark that
    passes, it hands [mark.request.content.contents] and [schema.schema]
    to [verifyContentProperties] and returns that verdict as it is. *)
Theorem verifyStructure_outcome (mark schema : obj) :
  (∀ e, errorCheck I mark = Err e → verifyStructure I mark schema = Err e)
  ∧ (errorCheck I mark = Ok tt →
     ∀ content contents,
       member (prop mark "request") "content" = Ok content →
       member content "contents" = Ok contents →
       verifyStructure I mark schema =
         Ok (verifyContentProperties contents (prop schema "schema"))).
Proof.
  split; [intros e; apply verifyStructure_propagates |].
  intros Hcheck content contents Hcontent Hcontents.
  rewrite (verifyStructure_checked _ _ Hcheck), Hcontent. cbn.
  rewrite Hcontents. reflexivity.
Qed.

(** After a passing [errorCheck] the request is truthy, so reading
    [mark.request.content] never throws. *)
Lemma verifyStructure_reads_request (mark : obj) :
  errorCheck I mark = Ok tt →
  ∃ content, member (M := result) (prop mark "request") "content" = Ok content.
Proof.
  intros Hcheck. apply errorCheck_passes in Hcheck as (_ & _ & Hr & _).
  apply member_truthy, Hr.
Qed.

(** *** The round trip *)

(** C1. With collaborators whose codecs satisfy their own round-trip law,
    every Mark [m] that passes [errorCheck] is compressed, and decompressing
    the result gives an object with the [request] and the [content] of [m]
    and nothing else: [m] itself when [m] has just these two properties. *)
Theorem decompress_compress (m : obj) :
  round_trip ContentStream → round_trip Stream →
  errorCheck I m = Ok tt →
  ∃ c m', compress I m = Ok c ∧ decompress I c = Ok m'
    ∧ m' !! "request" = m !! "request"
    ∧ m' !! "content" = m !! "content"
    ∧ IMark_shaped m'
    ∧ (IMark_shaped m → m' = m).
Proof.
  intros Hrequest Hcontent Hcheck.
  pose proof (compress_checked _ Hcheck) as Hcompress.
  apply errorCheck_passes in Hcheck as (Tc & Hc & Tr & Hr & _).
  destruct (Hrequest _ Hr) as (r & Er & Dr), (Hcontent _ Hc) as (c & Ec & Dc).
  rewrite Er in Hcompress. cbn in Hcompress. rewrite Ec in Hcompress.
  cbn in Hcompress.
  exists (VArray [r; c]),
         {[ "request" := prop m "request"; "content" := prop m "content" ]}.
  apply prop_truthy_present in Tc, Tr.
  assert (Hshape : IMark_shaped
    ({[ "request" := prop m "request"; "content" := prop m "content" ]} : obj)).
  { intros k [v Hv]. apply lookup_insert_Some in Hv as [[<- _] | [_ Hv]]; [auto |].
    apply lookup_singleton_Some in Hv as [<- _]. auto. }
  repeat split.
  - exact Hcompress.
  - rewrite decompress_pair, Dr. cbn. rewrite Dc. reflexivity.
  - rewrite Tr. apply lookup_insert_eq.
  - rewrite Tc. rewrite lookup_insert_ne by discriminate.
    apply lookup_singleton_eq.
  - exact Hshape.
  - intros Hm. apply map_eq. intros k.
    destruct (decide (k = "request")) as [-> |];
      [rewrite Tr; apply lookup_insert_eq |].
    rewrite lookup_insert_ne by congruence.
    destruct (decide (k = "content")) as [-> |];
      [rewrite Tc; apply lookup_singleton_eq |].
    rewrite lookup_singleton_ne by congruence.
    destruct (m !! k) eqn:Hk; [| reflexivity].
    destruct (Hm k) as [-> | ->]; [eauto | congruence | congruence].
Qed.
End Pure.

(** ** Collaborators with side effects *)

Section World.
Context {W : Type}.
Variable I : imports (eff W).

(** C3. A Mark without [content] fails with [ERROR_CONTENT_NOT_PROVIDED],
    whatever its [request] is and whatever the collaborators would do: the
    world comes back as it was, so no validator and no [verifyData] ran. *)
Theorem errorCheck_content_missing (input : obj) (w : W) :
  input !! "content" = None →
  errorCheck I input w = (Err ERROR_CONTENT_NOT_PROVIDED, w).
Proof.
  intros Hmissing. run_glue.
  rewrite (prop_falsy_absent _ _ Hmissing). reflexivity.
Qed.

(** C8. On an array of two elements that the decoders accept, [decompress]
    returns the reconstructed Mark and leaves the world that the two decoder
    calls left: nothing else ran, and [errorCheck] in particular was not
    asked about the result. *)
Theorem decompress_does_not_validate (a b request content : value) (w w1 w2 : W) :
  Entity.decompress (MarkContentUtils I) a w = (Ok request, w1) →
  Entity.decompress (StreamUtils I) b w1 = (Ok content, w2) →
  decompress I (VArray [a; b]) w =
    (Ok {[ "request" := request; "content" := content ]}, w2).
Proof.
  intros Hrequest Hcontent. run_glue. simpl.
  unfold index. simpl. rewrite Hrequest, Hcontent. reflexivity.
Qed.
End World.

(** ** The theorems at the sample collaborators *)

Example decompress_malformed_shapes :
  Forall (λ stream, decompress Sample.I stream =
                    Err (ERROR_DECOMPRESSION_ARRAY "Cord Mark"))
    [VArray []; VArray [VString "single"];
     VArray [Sample.packed_request; Sample.packed_content; VNull];
     VUndefined; VNull; VString "ab"; VNumber (Num 2); VObject ∅].
Proof. repeat constructor. Qed.

Example decompress_sample_pair :
  decompress Sample.I (VArray [Sample.packed_request; Sample.packed_content]) =
  Ok Sample.mark.
Proof. vm_compute. reflexivity. Qed.

Example verifyStructure_type_error :
  errorCheck Sample.I {[ "request" := Sample.entity_id "m1";
                         "content" := Sample.entity_id "m1" ]} = Ok tt
  ∧ verifyStructure Sample.I {[ "request" := Sample.entity_id "m1";
                                "content" := Sample.entity_id "m1" ]}
      Sample.schema = Err TypeError.
Proof. split; vm_compute; reflexivity. Qed.

Lemma round_trip_encodes (U : Entity.utils result) :
  round_trip U → encodes_valid U.
Proof. intros Hlaw x Hx. destruct (Hlaw x Hx) as (c & Hc & _). eauto. Qed.

Lemma sample_pack_unpack (name name' : string) (x : value) :
  Sample.check name x = Ok tt →
  ∃ c, Sample.pack name x = Ok c ∧ Sample.unpack name' c = Ok x.
Proof.
  destruct x as [| | | | | | o]; simpl; try discriminate.
  intros Hcheck. unfold Sample.pack. simpl. rewrite Hcheck.
  destruct (truthy (prop o "id")) eqn:Hid; [| discriminate].
  eexists. split; [reflexivity |].
  unfold Sample.unpack, index. simpl.
  rewrite insert_delete_id; [reflexivity |].
  apply prop_truthy_present, Hid.
Qed.

Lemma sample_round_trip_Stream : round_trip Sample.Stream.
Proof. intros x. apply sample_pack_unpack. Qed.

Lemma sample_round_trip_ContentStream : round_trip Sample.ContentStream.
Proof. intros x. apply sample_pack_unpack. Qed.

Lemma decompress_compress_witness :
  round_trip Sample.ContentStream ∧ round_trip Sample.Stream ∧
  errorCheck Sample.I Sample.mark = Ok tt ∧
  ∃ c m', compress Sample.I Sample.mark = Ok c ∧ decompress Sample.I c = Ok m'
    ∧ m' !! "request" = Sample.mark !! "request"
    ∧ m' !! "content" = Sample.mark !! "content"
    ∧ IMark_shaped m'
    ∧ (IMark_shaped Sample.mark → m' = Sample.mark).
Proof.
  split; [exact sample_round_trip_ContentStream |].
  split; [exact sample_round_trip_Stream |].
  split; [vm_compute; reflexivity |].
  apply (decompress_compress Sample.Stream Sample.ContentStream
           Sample.verifyData Sample.verifyContentProperties Sample.mark).
  - exact sample_round_trip_ContentStream.
  - exact sample_round_trip_Stream.
  - vm_compute. reflexivity.
Defined.

Lemma compress_outcome_witness :
  encodes_valid Sample.ContentStream ∧ encodes_valid Sample.Stream ∧
  (∀ e, compress Sample.I Sample.mark = Err e ↔
        errorCheck Sample.I Sample.mark = Err e) ∧
  (errorCheck Sample.I Sample.mark = Ok tt →
   ∃ request content,
     Entity.compress Sample.ContentStream (prop Sample.mark "request") = Ok request ∧
     Entity.compress Sample.Stream (prop Sample.mark "content") = Ok content ∧
     compress Sample.I Sample.mark = Ok (VArray [request; content]) ∧
     index (VArray [request; content]) 0 = request ∧
     index (VArray [request; content]) 1 = content ∧
     length (elements (VArray [request; content])) = 2).
Proof.
  split; [exact (round_trip_encodes _ sample_round_trip_ContentStream) |].
  split; [exact (round_trip_encodes _ sample_round_trip_Stream) |].
  apply (compress_outcome Sample.Stream Sample.ContentStream
           Sample.verifyData Sample.verifyContentProperties Sample.mark).
  - exact (round_trip_encodes _ sample_round_trip_ContentStream).
  - exact (round_trip_encodes _ sample_round_trip_Stream).
Defined.

Lemma decompress_error_names_Mark_witness :
  (∀ a b, VArray [VString "single"] ≠ VArray [a; b]) ∧
  ∃ type,
    decompress Sample.I (VArray [VString "single"]) =
      Err (ERROR_DECOMPRESSION_ARRAY type)
    ∧ type = "Cord Mark" ∧ names_entity "Mark" type.
Proof.
  split; [intros a b; discriminate |].
  apply (decompress_error_names_Mark Sample.Stream Sample.ContentStream
           Sample.verifyData Sample.verifyContentProperties).
  intros a b. discriminate.
Defined.

Lemma errorCheck_content_missing_witness :
  Sample.no_content !! "content" = None ∧
  errorCheck Sample.L Sample.no_content [] = (Err ERROR_CONTENT_NOT_PROVIDED, []).
Proof.
  split; [vm_compute; reflexivity |].
  apply (errorCheck_content_missing Sample.L Sample.no_content []).
  vm_compute. reflexivity.
Defined.

Lemma decompress_does_not_validate_witness :
  Entity.decompress (MarkContentUtils Sample.L)
    (VArray [VString "m1"; VObject ∅]) [] =
    (Ok (Sample.entity_id "m1"), ["MarkContentUtils.decompress"])
  ∧ Entity.decompress (StreamUtils Sample.L)
      (VArray [VString "m2"; VObject ∅]) ["MarkContentUtils.decompress"] =
      (Ok (Sample.entity_id "m2"),
       ["MarkContentUtils.decompress"; "StreamUtils.decompress"])
  ∧ decompress Sample.L Sample.forged_pair [] =
      (Ok {[ "request" := Sample.entity_id "m1"; "content" := Sample.entity_id "m2" ]},
       ["MarkContentUtils.decompress"; "StreamUtils.decompress"])
  ∧ errorCheck Sample.I
      {[ "request" := Sample.entity_id "m1"; "content" := Sample.entity_id "m2" ]} =
      Err ERROR_CONTENT_UNVERIFIABLE.
Proof.
  split; [vm_compute; reflexivity |].
  split; [vm_compute; reflexivity |].
  split; [| vm_compute; reflexivity].
  apply (decompress_does_not_validate Sample.L
           (VArray [VString "m1"; VObject ∅]) (VArray [VString "m2"; VObject ∅])
           (Sample.entity_id "m1") (Sample.entity_id "m2")
           [] ["MarkContentUtils.decompress"]
           ["MarkContentUtils.decompress"; "StreamUtils.decompress"]).
  - vm_compute. reflexivity.
  - vm_compute. reflexivity.
Defined.

(** C10 as it was stated fails: truthy [content] and falsy [request] do not
    always end in [ERROR_MC_NOT_PROVIDED].  The content validator runs first,
    and when it rejects the truthy [content] its error is the one raised. *)
Lemma errorCheck_falsy_request_counterexample :
  truthy (prop Sample.rejected_content "content") = true
  ∧ truthy (prop Sample.rejected_content "request") = false
  ∧ errorCheck Sample.I Sample.rejected_content = Err (Foreign "ERROR_STREAM")
  ∧ errorCheck Sample.I Sample.rejected_content ≠ Err ERROR_MC_NOT_PROVIDED.
Proof.
  split; [vm_compute; reflexivity |].
  split; [vm_compute; reflexivity |].
  split; [vm_compute; reflexivity |].
  vm_compute. discriminate.
Qed.

(** ** The order of the calls *)

(** Sequencing in the world monad. *)
Lemma eff_bind_run {W A B} (m : eff W A) (f : A → eff W B) (w w1 : W) (a : A) :
  m w = (Ok a, w1) → (m ≫= f) w = f a w1.
Proof. unfold mbind, eff_bind. intros ->. reflexivity. Qed.

Lemma eff_bind_stop {W A B} (m : eff W A) (f : A → eff W B) (w w1 : W) (e : error) :
  m w = (Err e, w1) → (m ≫= f) w = (Err e, w1).
Proof. unfold mbind, eff_bind. intros ->. reflexivity. Qed.

Lemma eff_bind_Ok {W A B} (m : eff W A) (f : A → eff W B) (w w' : W) (b : B) :
  (m ≫= f) w = (Ok b, w') ↔ ∃ a w1, m w = (Ok a, w1) ∧ f a w1 = (Ok b, w').
Proof.
  unfold mbind, eff_bind. destruct (m w) as [[a | e] w1]; split.
  - intros H. eauto.
  - intros (a' & w1' & [= -> ->] & H). exact H.
  - discriminate.
  - intros (a' & w1' & [=] & _).
Qed.

Lemma result_bind_Ok {A B} (m : result A) (f : A → result B) (b : B) :
  m ≫= f = Ok b ↔ ∃ a, m = Ok a ∧ f a = Ok b.
Proof.
  unfold mbind, result_bind. destruct m as [a | e]; split.
  - eauto.
  - intros (a' & [= ->] & H). exact H.
  - discriminate.
  - intros (a' & [=] & _).
Qed.

Lemma member_object {W} (o : obj) (k : string) (w : W) :
  member (M := eff W) (VObject o) k w = (Ok (prop o k), w).
Proof. reflexivity. Qed.

(** Reading a property does not change the world. *)
Lemma member_world {W} (v x : value) (k : string) (w w' : W) :
  member (M := eff W) v k w = (Ok x, w') → w' = w.
Proof.
  unfold member, mret, mthrow, eff_ret, eff_throw. destruct v; congruence.
Qed.

(** What it reads does not depend on the world. *)
Lemma member_pure {W} (v x : value) (k : string) (w w' : W) :
  member (M := eff W) v k w = (Ok x, w') → member (M := result) v k = Ok x.
Proof.
  unfold member, mret, mthrow, eff_ret, eff_throw, result_ret, result_throw.
  destruct v; congruence.
Qed.

Section Sequencing.
Context {W : Type}.
Variable I : imports (eff W).

(** X1. [errorCheck] completes exactly when [content] and [request] are
    truthy and the three collaborators accept in this order, each in the
    world that the one before left: the content validator, the request
    validator, then [verifyData] answering [true]. *)
Theorem errorCheck_passes_in_order (input : obj) (w w' : W) :
  errorCheck I input w = (Ok tt, w') ↔
    truthy (prop input "content") = true ∧ truthy (prop input "request") = true ∧
    ∃ w1 w2,
      Entity.errorCheck (StreamUtils I) (prop input "content") w = (Ok tt, w1) ∧
      Entity.errorCheck (MarkContentUtils I) (prop input "request") w1 = (Ok tt, w2) ∧
      Mark_verifyData I input w2 = (Ok true, w').
Proof.
  unfold errorCheck. rewrite eff_bind_Ok. split.
  - intros ([] & w1 & Hc & H). apply eff_bind_Ok in H as ([] & w2 & Hr & H).
    apply eff_bind_Ok in H as (verified & w3 & Hv & H).
    destruct (truthy (prop input "content")); [| discriminate].
    destruct (truthy (prop input "request")); [| discriminate].
    destruct verified; [| discriminate]. injection H as <-.
    eauto 10.
  - intros (-> & -> & w1 & w2 & Hc & Hr & Hv).
    exists tt, w1. split; [exact Hc |].
    rewrite (eff_bind_run _ _ _ _ _ Hr), (eff_bind_run _ _ _ _ _ Hv). reflexivity.
Qed.

(** X2. [errorCheck] stops at the first failure.  With truthy [content]: an
    error of the content validator comes out with the world that validator
    left, so the request validator and [verifyData] did not run; after an
    accepted [content], a falsy [request] gives [ERROR_MC_NOT_PROVIDED] and an
    error of the request validator comes out as it is, in both cases without
    [verifyData] having run. *)
Theorem errorCheck_short_circuit (input : obj) (w : W) :
  truthy (prop input "content") = true →
  (∀ e w1,
     Entity.errorCheck (StreamUtils I) (prop input "content") w = (Err e, w1) →
     errorCheck I input w = (Err e, w1))
  ∧ (∀ w1,
       Entity.errorCheck (StreamUtils I) (prop input "content") w = (Ok tt, w1) →
       (truthy (prop input "request") = false →
        errorCheck I input w = (Err ERROR_MC_NOT_PROVIDED, w1))
       ∧ (truthy (prop input "request") = true →
          ∀ e w2,
            Entity.errorCheck (MarkContentUtils I) (prop input "request") w1 = (Err e, w2) →
            errorCheck I input w = (Err e, w2))).
Proof.
  intros Hc. unfold errorCheck. rewrite Hc. split.
  - intros e w1 He. apply eff_bind_stop, He.
  - intros w1 Hok. rewrite (eff_bind_run _ _ _ _ _ Hok). split.
    + intros ->. reflexivity.
    + intros -> e w2 He. apply eff_bind_stop, He.
Qed.

(** X3. [errorCheck] does not catch what [verifyData] throws: after both
    validators have accepted, an exception of [verifyData] comes out as it
    is, not as [ERROR_CONTENT_UNVERIFIABLE]. *)
Theorem errorCheck_verifyData_throws (input : obj) (e : error) (w w1 w2 w3 : W) :
  truthy (prop input "content") = true →
  Entity.errorCheck (StreamUtils I) (prop input "content") w = (Ok tt, w1) →
  truthy (prop input "request") = true →
  Entity.errorCheck (MarkContentUtils I) (prop input "request") w1 = (Ok tt, w2) →
  Mark_verifyData I input w2 = (Err e, w3) →
  errorCheck I input w = (Err e, w3).
Proof.
  intros Tc Hc Tr Hr Hv. unfold errorCheck. rewrite Tc, Tr.
  rewrite (eff_bind_run _ _ _ _ _ Hc), (eff_bind_run _ _ _ _ _ Hr).
  apply eff_bind_stop, Hv.
Qed.

(** X4. [compress] returns a value exactly when [errorCheck] passed and then
    the request encoder and, after it, the content encoder returned; the
    value is the array of these two results, the request first.  So whatever
    [compress] returns comes from a validated Mark and has exactly two
    elements. *)
Theorem compress_returns_iff (stream : obj) (c : value) (w w' : W) :
  compress I stream w = (Ok c, w') ↔
    ∃ request content w1 w2,
      errorCheck I stream w = (Ok tt, w1) ∧
      Entity.compress (MarkContentUtils I) (prop stream "request") w1 = (Ok request, w2) ∧
      Entity.compress (StreamUtils I) (prop stream "content") w2 = (Ok content, w') ∧
      c = VArray [request; content].
Proof.
  unfold compress. rewrite eff_bind_Ok. split.
  - intros ([] & w1 & Hcheck & H).
    apply eff_bind_Ok in H as (r & w2 & Hr & H).
    apply eff_bind_Ok in H as (ct & w3 & Hc & H).
    injection H as <- <-. eauto 10.
  - intros (r & ct & w1 & w2 & Hcheck & Hr & Hc & ->).
    exists tt, w1. split; [exact Hcheck |].
    rewrite (eff_bind_run _ _ _ _ _ Hr), (eff_bind_run _ _ _ _ _ Hc). reflexivity.
Qed.

(** X5. [compress] stops at the first failure and hands the error on as it
    is: after a failed [errorCheck] no encoder runs, and after a failed
    request encoder the content encoder does not run. *)
Theorem compress_stops_at_first_failure (stream : obj) (w : W) :
  (∀ e w1, errorCheck I stream w = (Err e, w1) → compress I stream w = (Err e, w1))
  ∧ (∀ e w1 w2,
       errorCheck I stream w = (Ok tt, w1) →
       Entity.compress (MarkContentUtils I) (prop stream "request") w1 = (Err e, w2) →
       compress I stream w = (Err e, w2))
  ∧ (∀ e request w1 w2 w3,
       errorCheck I stream w = (Ok tt, w1) →
       Entity.compress (MarkContentUtils I) (prop stream "request") w1 = (Ok request, w2) →
       Entity.compress (StreamUtils I) (prop stream "content") w2 = (Err e, w3) →
       compress I stream w = (Err e, w3)).
Proof.
  unfold compress. repeat split.
  - intros e w1 He. apply eff_bind_stop, He.
  - intros e w1 w2 Hcheck He. rewrite (eff_bind_run _ _ _ _ _ Hcheck).
    apply eff_bind_stop, He.
  - intros e r w1 w2 w3 Hcheck Hr He.
    rewrite (eff_bind_run _ _ _ _ _ Hcheck), (eff_bind_run _ _ _ _ _ Hr).
    apply eff_bind_stop, He.
Qed.

(** X6. On an input that is not an array of two elements [decompress] fails
    before it calls anything: the world is the one it was given, no decoder
    ran. *)
Theorem decompress_malformed_untouched (stream : value) (w : W) :
  (∀ a b, stream ≠ VArray [a; b]) →
  decompress I stream w = (Err (ERROR_DECOMPRESSION_ARRAY "Cord Mark"), w).
Proof.
  intros Hshape. unfold decompress. rewrite (not_pair_shape _ Hshape). reflexivity.
Qed.

(** X7. [decompress] returns a Mark exactly when its input is an array of
    two elements and the request decoder, then the content decoder, returned;
    the Mark has the two properties [request] and [content], holding these
    results, and no other. *)
Theorem decompress_returns_iff (stream : value) (m : obj) (w w' : W) :
  decompress I stream w = (Ok m, w') ↔
    ∃ a b request content w1,
      stream = VArray [a; b] ∧
      Entity.decompress (MarkContentUtils I) a w = (Ok request, w1) ∧
      Entity.decompress (StreamUtils I) b w1 = (Ok content, w') ∧
      m = {[ "request" := request; "content" := content ]}.
Proof.
  split.
  - unfold decompress.
    destruct (negb (Array_isArray stream) || _) eqn:Hshape; [discriminate |].
    apply pair_shape in Hshape as (a & b & ->). intros H.
    apply eff_bind_Ok in H as (r & w1 & Hr & H).
    apply eff_bind_Ok in H as (c & w2 & Hc & H).
    injection H as <- <-. exists a, b, r, c, w1. auto.
  - intros (a & b & r & c & w1 & -> & Hr & Hc & ->).
    unfold decompress. simpl. unfold index. simpl.
    rewrite (eff_bind_run _ _ _ _ _ Hr), (eff_bind_run _ _ _ _ _ Hc). reflexivity.
Qed.

(** X8. [decompress] hands a decoder's error on as it is, and after a failed
    request decoder the content decoder does not run. *)
Theorem decompress_stops_at_first_failure (a b : value) (w : W) :
  (∀ e w1,
     Entity.decompress (MarkContentUtils I) a w = (Err e, w1) →
     decompress I (VArray [a; b]) w = (Err e, w1))
  ∧ (∀ e request w1 w2,
       Entity.decompress (MarkContentUtils I) a w = (Ok request, w1) →
       Entity.decompress (StreamUtils I) b w1 = (Err e, w2) →
       decompress I (VArray [a; b]) w = (Err e, w2)).
Proof.
  unfold decompress. simpl. unfold index. simpl. split.
  - intros e w1 He. apply eff_bind_stop, He.
  - intros e r w1 w2 Hr He. rewrite (eff_bind_run _ _ _ _ _ Hr).
    apply eff_bind_stop, He.
Qed.

(** X10. When the request of a Mark that passes [errorCheck] has no
    [content] ([undefined] or [null], which is also what a request that is
    not an object reads as), [verifyStructure] throws a [TypeError] at
    [mark.request.content.contents]; the schema matcher is not called. *)
Theorem verifyStructure_missing_content
    (mark schema : obj) (content : value) (w w1 : W) :
  errorCheck I mark w = (Ok tt, w1) →
  member (M := result) (prop mark "request") "content" = Ok content →
  content = VUndefined ∨ content = VNull →
  verifyStructure I mark schema w = (Err TypeError, w1).
Proof.
  intros Hcheck Hcontent Hnull. unfold verifyStructure.
  rewrite (eff_bind_run _ _ _ _ _ Hcheck).
  destruct (prop mark "request") as [| | | | | | o]; try discriminate;
    injection Hcontent as <-;
    unfold member, mbind, eff_bind, mret, eff_ret, mthrow, eff_throw;
    try reflexivity; destruct Hnull as [-> | ->]; reflexivity.
Qed.
End Sequencing.

Section PureComposition.
Variables Stream ContentStream : Entity.utils result.
Variable verifyData : obj → bool.
Variable verifyContentProperties : value → value → bool.

Local Abbreviation I :=
  (pure_imports Stream ContentStream verifyData verifyContentProperties).

(** X9. [verifyStructure] returns a verdict, [true] or [false], exactly for
    a Mark that passes [errorCheck] and whose [request.content] can be read
    for its [contents]; the verdict is the matcher's on those contents and
    [schema.schema]. *)
Theorem verifyStructure_verdict (mark schema : obj) (verdict : bool) :
  verifyStructure I mark schema = Ok verdict ↔
    errorCheck I mark = Ok tt ∧
    ∃ content contents,
      member (prop mark "request") "content" = Ok content ∧
      member content "contents" = Ok contents ∧
      verifyContentProperties contents (prop schema "schema") = verdict.
Proof.
  unfold verifyStructure. rewrite result_bind_Ok. split.
  - intros ([] & Hcheck & H).
    apply result_bind_Ok in H as (content & Hcontent & H).
    apply result_bind_Ok in H as (contents & Hcontents & H).
    injection H as <-. eauto 10.
  - intros (Hcheck & content & contents & Hcontent & Hcontents & <-).
    exists tt. split; [exact Hcheck |].
    rewrite Hcontent. cbn. rewrite Hcontents. reflexivity.
Qed.

(** X11. The round trip from the compressed side: when [decompress] reads a
    Mark out of [c], the Mark passes [errorCheck], and the collaborators'
    encoders give back the two elements of [c] from what their decoders read
    in them, then [compress] of that Mark is [c] again. *)
Theorem compress_decompress (c : value) (m : obj) :
  decompress I c = Ok m →
  errorCheck I m = Ok tt →
  re_encodes ContentStream (index c 0) →
  re_encodes Stream (index c 1) →
  compress I m = Ok c.
Proof.
  intros Hdecompress Hcheck Hrequest Hcontent.
  unfold decompress in Hdecompress.
  destruct (negb (Array_isArray c) || _) eqn:Hshape; [discriminate |].
  apply pair_shape in Hshape as (a & b & ->).
  apply result_bind_Ok in Hdecompress as (r & Hr & H).
  apply result_bind_Ok in H as (ct & Hc & H). injection H as <-.
  rewrite (compress_checked _ _ _ _ _ Hcheck).
  unfold prop. rewrite lookup_insert_eq.
  rewrite lookup_insert_ne by discriminate. rewrite lookup_singleton_eq. simpl.
  rewrite (Hrequest r Hr). cbn. rewrite (Hcontent ct Hc). reflexivity.
Qed.
End PureComposition.

(** ** createDid *)

Import GenerateDid.

Section Did.
Context {W : Type}.
Variable Env : sdk (eff W).

(** X13. What [createDid] returns: an object of exactly [mnemonic] and
    [document], where [mnemonic] is the one [mnemonicGenerate] produced in
    this call, the keypairs were derived from it, the creation transaction
    (listing the authentication key of these keypairs and signed through it)
    was submitted for [submitterAccount] without error, and [document] is
    truthy.  A falsy document is never returned. *)
Theorem createDid_returns (submitterAccount r : obj) (w w' : W) :
  createDid Env submitterAccount w = (Ok r, w') →
  ∃ api mnemonic keys authentication input didCreationTx submitted document
    w1 w2 w3 w4 w5,
    ConfigService_get Env "api" w = (Ok api, w1) ∧
    mnemonicGenerate Env w1 = (Ok mnemonic, w2) ∧
    generateKeypairs Env mnemonic w2 = (Ok keys, w3) ∧
    member (M := result) keys "authentication" = Ok authentication ∧
    prop input "authentication" = VArray [authentication] ∧
    Did_getStoreTx Env (VObject input) (prop submitterAccount "address")
      (signCallback Env authentication) w3 = (Ok didCreationTx, w4) ∧
    Chain_signAndSubmitTx Env didCreationTx (VObject submitterAccount) w4 =
      (Ok submitted, w5) ∧
    r = {[ "mnemonic" := mnemonic; "document" := document ]} ∧
    truthy document = true.
Proof.
  unfold createDid. intros H.
  apply eff_bind_Ok in H as (api & w1 & Hapi & H).
  apply eff_bind_Ok in H as (mnemonic & w2 & Hmnemonic & H).
  apply eff_bind_Ok in H as (keys & w3 & Hkeys & H).
  apply eff_bind_Ok in H as (authentication & w3a & Ha & H).
  pose proof (member_world _ _ _ _ _ Ha) as ->.
  apply eff_bind_Ok in H as (keyAgreement & w3b & Hb & H).
  pose proof (member_world _ _ _ _ _ Hb) as ->.
  apply eff_bind_Ok in H as (assertionMethod & w3c & Hc & H).
  pose proof (member_world _ _ _ _ _ Hc) as ->.
  apply eff_bind_Ok in H as (capabilityDelegation & w3d & Hd & H).
  pose proof (member_world _ _ _ _ _ Hd) as ->.
  apply eff_bind_Ok in H as (didCreationTx & w4 & Htx & H).
  apply eff_bind_Ok in H as (submitted & w5 & Hsubmit & H).
  repeat (apply eff_bind_Ok in H as (? & ? & _ & H)).
  match type of H with context [truthy ?d] => set (document := d) in * end.
  destruct (truthy document) eqn:Hdocument; [| discriminate].
  injection H as <- _.
  eexists api, mnemonic, keys, authentication, _, didCreationTx, submitted,
          document, w1, w2, w3, w4, w5.
  split; [exact Hapi |]. split; [exact Hmnemonic |]. split; [exact Hkeys |].
  split; [exact (member_pure _ _ _ _ _ Ha) |].
  split; [| split; [exact Htx |]].
  { unfold prop. rewrite lookup_insert_eq. reflexivity. }
  split; [exact Hsubmit |]. split; [reflexivity | exact Hdocument].
Qed.

Section Submitted.
Variables (submitterAccount keypairs : obj) (api mnemonic didCreationTx : value).
Variables (w0 w1 w2 w3 w4 : W).

Local Abbreviation authentication := (prop keypairs "authentication").
Local Abbreviation input :=
  (VObject {[ "authentication" := VArray [authentication];
              "keyAgreement" := VArray [prop keypairs "keyAgreement"];
              "assertionMethod" := VArray [prop keypairs "assertionMethod"];
              "capabilityDelegation" := VArray [prop keypairs "capabilityDelegation"];
              "service" := VArray [service] ]}).

Hypothesis Hapi : ConfigService_get Env "api" w0 = (Ok api, w1).
Hypothesis Hmnemonic : mnemonicGenerate Env w1 = (Ok mnemonic, w2).
Hypothesis Hkeys : generateKeypairs Env mnemonic w2 = (Ok (VObject keypairs), w3).
Hypothesis Htx :
  Did_getStoreTx Env input (prop submitterAccount "address")
    (signCallback Env authentication) w3 = (Ok didCreationTx, w4).

Lemma createDid_to_submit :
  createDid Env submitterAccount w0 =
    (Chain_signAndSubmitTx Env didCreationTx (VObject submitterAccount) ;;
     didUri ← Did_getDidUriFromKey Env authentication ;
     call ← member api "call" ;
     did ← member call "did" ;
     member did "query" ;;
     chainDid ← Did_toChain Env didUri ;
     encodedDid ← query Env did chainDid ;
     info ← Did_linkedInfoFromChain Env encodedDid ;
     document ← member info "document" ;
     if negb (truthy document)
     then mthrow (Foreign "DID was not successfully created.")
     else mret ({[ "mnemonic" := mnemonic; "document" := document ]} : obj)) w4.
Proof.
  unfold createDid.
  rewrite (eff_bind_run _ _ _ _ _ Hapi), (eff_bind_run _ _ _ _ _ Hmnemonic),
    (eff_bind_run _ _ _ _ _ Hkeys).
  rewrite !(eff_bind_run _ _ _ _ _ (member_object _ _ _)).
  rewrite (eff_bind_run _ _ _ _ _ Htx). reflexivity.
Qed.

(** X15. When the chain rejects the creation transaction, [createDid] fails
    with that error in the world the submission left: the DID is not looked
    up, and the mnemonic that was generated is not handed out. *)
Theorem createDid_submit_fails (e : error) (w5 : W) :
  Chain_signAndSubmitTx Env didCreationTx (VObject submitterAccount) w4 = (Err e, w5) →
  createDid Env submitterAccount w0 = (Err e, w5).
Proof.
  intros Hsubmit. rewrite createDid_to_submit. apply eff_bind_stop, Hsubmit.
Qed.

Section Queried.
Variables (submitted didUri chainDid encodedDid : value) (root call did info : obj).
Variables (w5 w6 w7 w8 w9 : W).
Hypothesis Hsubmit :
  Chain_signAndSubmitTx Env didCreationTx (VObject submitterAccount) w4 = (Ok submitted, w5).
Hypothesis Huri : Did_getDidUriFromKey Env authentication w5 = (Ok didUri, w6).
Hypothesis Hroot : api = VObject root.
Hypothesis Hcall : prop root "call" = VObject call.
Hypothesis Hdid : prop call "did" = VObject did.
Hypothesis Hchain : Did_toChain Env didUri w6 = (Ok chainDid, w7).
Hypothesis Hquery : query Env (VObject did) chainDid w7 = (Ok encodedDid, w8).
Hypothesis Hinfo : Did_linkedInfoFromChain Env encodedDid w8 = (Ok (VObject info), w9).

(** X14. When every call up to [Did.linkedInfoFromChain] returns,
    [createDid] ends on the [document] of that result: a truthy one is
    returned together with the mnemonic, and for a falsy or missing one it
    throws the error "DID was not successfully created." -- after the
    transaction was submitted, and without handing out the mnemonic. *)
Theorem createDid_outcome :
  createDid Env submitterAccount w0 =
    (if truthy (prop info "document")
     then Ok {[ "mnemonic" := mnemonic; "document" := prop info "document" ]}
     else Err (Foreign "DID was not successfully created."),
     w9).
Proof.
  rewrite createDid_to_submit.
  rewrite (eff_bind_run _ _ _ _ _ Hsubmit), (eff_bind_run _ _ _ _ _ Huri).
  rewrite Hroot, (eff_bind_run _ _ _ _ _ (member_object _ _ _)), Hcall.
  rewrite (eff_bind_run _ _ _ _ _ (member_object _ _ _)), Hdid.
  rewrite (eff_bind_run _ _ _ _ _ (member_object _ _ _)).
  rewrite (eff_bind_run _ _ _ _ _ Hchain), (eff_bind_run _ _ _ _ _ Hquery).
  rewrite (eff_bind_run _ _ _ _ _ Hinfo).
  rewrite (eff_bind_run _ _ _ _ _ (member_object _ _ _)).
  destruct (truthy (prop info "document")); reflexivity.
Qed.
End Queried.
End Submitted.
End Did.

(** ** The orders of calls at the sample collaborators *)

Example sample_verifyStructure_log :
  verifyStructure Sample.L Sample.mark Sample.schema [] =
  (Ok true,
   ["StreamUtils.errorCheck"; "MarkContentUtils.errorCheck"; "Mark.verifyData";
    "SchemaUtils.verifyContentProperties"]).
Proof. vm_compute. reflexivity. Qed.

Example sample_decompress_log :
  decompress Sample.L (VArray [Sample.packed_request; Sample.packed_content]) [] =
  (Ok Sample.mark, ["MarkContentUtils.decompress"; "StreamUtils.decompress"]).
Proof. vm_compute. reflexivity. Qed.

Example sample_createDid :
  createDid (SampleDid.Env true true) SampleDid.account [] =
  (Ok {[ "mnemonic" := SampleDid.mnemonic; "document" := SampleDid.document ]},
   SampleDid.log_to_info).
Proof. vm_compute. reflexivity. Qed.

Lemma errorCheck_short_circuit_witness :
  truthy (prop Sample.rejected_content "content") = true ∧
  errorCheck Sample.L Sample.rejected_content [] =
    (Err (Foreign "ERROR_STREAM"), ["StreamUtils.errorCheck"]).
Proof.
  split; [vm_compute; reflexivity |].
  apply (proj1 (errorCheck_short_circuit Sample.L Sample.rejected_content []
                  ltac:(vm_compute; reflexivity))).
  vm_compute. reflexivity.
Defined.

Lemma errorCheck_verifyData_throws_witness :
  Mark_verifyData Faulty.L Sample.mark
    ["StreamUtils.errorCheck"; "MarkContentUtils.errorCheck"] =
    (Err (Foreign "ERROR_ROOT_HASH_UNVERIFIABLE"),
     ["StreamUtils.errorCheck"; "MarkContentUtils.errorCheck"; "Mark.verifyData"]) ∧
  errorCheck Faulty.L Sample.mark [] =
    (Err (Foreign "ERROR_ROOT_HASH_UNVERIFIABLE"),
     ["StreamUtils.errorCheck"; "MarkContentUtils.errorCheck"; "Mark.verifyData"]).
Proof.
  split; [vm_compute; reflexivity |].
  apply (errorCheck_verifyData_throws Faulty.L Sample.mark
           (Foreign "ERROR_ROOT_HASH_UNVERIFIABLE")
           [] ["StreamUtils.errorCheck"]
           ["StreamUtils.errorCheck"; "MarkContentUtils.errorCheck"]
           ["StreamUtils.errorCheck"; "MarkContentUtils.errorCheck"; "Mark.verifyData"]);
    vm_compute; reflexivity.
Defined.

Lemma decompress_malformed_untouched_witness :
  (∀ a b, VArray [VString "single"] ≠ VArray [a; b]) ∧
  decompress Sample.L (VArray [VString "single"]) ["earlier"] =
    (Err (ERROR_DECOMPRESSION_ARRAY "Cord Mark"), ["earlier"]).
Proof.
  split; [intros a b; discriminate |].
  apply (decompress_malformed_untouched Sample.L (VArray [VString "single"]) ["earlier"]).
  intros a b. discriminate.
Defined.

Lemma verifyStructure_missing_content_witness :
  errorCheck Sample.L
    {[ "request" := Sample.entity_id "m1"; "content" := Sample.entity_id "m1" ]} [] =
    (Ok tt, ["StreamUtils.errorCheck"; "MarkContentUtils.errorCheck"; "Mark.verifyData"]) ∧
  verifyStructure Sample.L
    {[ "request" := Sample.entity_id "m1"; "content" := Sample.entity_id "m1" ]}
    Sample.schema [] =
    (Err TypeError,
     ["StreamUtils.errorCheck"; "MarkContentUtils.errorCheck"; "Mark.verifyData"]).
Proof.
  split; [vm_compute; reflexivity |].
  apply (verifyStructure_missing_content Sample.L
           {[ "request" := Sample.entity_id "m1"; "content" := Sample.entity_id "m1" ]}
           Sample.schema VUndefined []).
  - vm_compute. reflexivity.
  - vm_compute. reflexivity.
  - left. reflexivity.
Defined.

Lemma compress_decompress_witness :
  decompress Sample.I (VArray [Sample.packed_request; Sample.packed_content]) =
    Ok Sample.mark ∧
  compress Sample.I Sample.mark =
    Ok (VArray [Sample.packed_request; Sample.packed_content]).
Proof.
  split; [vm_compute; reflexivity |].
  apply (compress_decompress Sample.Stream Sample.ContentStream
           Sample.verifyData Sample.verifyContentProperties
           (VArray [Sample.packed_request; Sample.packed_content]) Sample.mark).
  - vm_compute. reflexivity.
  - vm_compute. reflexivity.
  - intros x Hx. vm_compute in Hx. injection Hx as <-. vm_compute. reflexivity.
  - intros x Hx. vm_compute in Hx. injection Hx as <-. vm_compute. reflexivity.
Defined.

Lemma createDid_returns_witness :
  createDid (SampleDid.Env true true) SampleDid.account [] =
    (Ok {[ "mnemonic" := SampleDid.mnemonic; "document" := SampleDid.document ]},
     SampleDid.log_to_info) ∧
  ∃ api mnemonic keys authentication input didCreationTx submitted document
    w1 w2 w3 w4 w5,
    ConfigService_get (SampleDid.Env true true) "api" [] = (Ok api, w1) ∧
    mnemonicGenerate (SampleDid.Env true true) w1 = (Ok mnemonic, w2) ∧
    generateKeypairs (SampleDid.Env true true) mnemonic w2 = (Ok keys, w3) ∧
    member (M := result) keys "authentication" = Ok authentication ∧
    prop input "authentication" = VArray [authentication] ∧
    Did_getStoreTx (SampleDid.Env true true) (VObject input)
      (prop SampleDid.account "address")
      (signCallback (SampleDid.Env true true) authentication) w3 =
      (Ok didCreationTx, w4) ∧
    Chain_signAndSubmitTx (SampleDid.Env true true) didCreationTx
      (VObject SampleDid.account) w4 = (Ok submitted, w5) ∧
    ({[ "mnemonic" := SampleDid.mnemonic; "document" := SampleDid.document ]} : obj) =
      {[ "mnemonic" := mnemonic; "document" := document ]} ∧
    truthy document = true.
Proof.
  split; [vm_compute; reflexivity |].
  apply (createDid_returns (SampleDid.Env true true) SampleDid.account
           {[ "mnemonic" := SampleDid.mnemonic; "document" := SampleDid.document ]}
           [] SampleDid.log_to_info).
  vm_compute. reflexivity.
Defined.

Lemma createDid_outcome_witness :
  truthy (prop (SampleDid.info false) "document") = false ∧
  createDid (SampleDid.Env true false) SampleDid.account [] =
    (Err (Foreign "DID was not successfully created."), SampleDid.log_to_info).
Proof.
  split; [vm_compute; reflexivity |].
  rewrite (createDid_outcome (SampleDid.Env true false) SampleDid.account
             SampleDid.keypairs (VObject SampleDid.api) SampleDid.mnemonic SampleDid.tx
             [] (take 1 SampleDid.log_to_info) (take 2 SampleDid.log_to_info)
             (take 3 SampleDid.log_to_info) SampleDid.log_to_tx
             ltac:(vm_compute; reflexivity) ltac:(vm_compute; reflexivity)
             ltac:(vm_compute; reflexivity) ltac:(vm_compute; reflexivity)
             VUndefined (VString "did:cord:3wF") (VString "3wF") (VString "0xencoded")
             SampleDid.api SampleDid.call SampleDid.did (SampleDid.info false)
             SampleDid.log_to_submit (take 7 SampleDid.log_to_info)
             (take 8 SampleDid.log_to_info) (take 9 SampleDid.log_to_info)
             SampleDid.log_to_info
             ltac:(vm_compute; reflexivity) ltac:(vm_compute; reflexivity)
             ltac:(reflexivity) ltac:(vm_compute; reflexivity)
             ltac:(vm_compute; reflexivity) ltac:(vm_compute; reflexivity)
             ltac:(vm_compute; reflexivity) ltac:(vm_compute; reflexivity)).
  vm_compute. reflexivity.
Defined.

Lemma createDid_submit_fails_witness :
  Chain_signAndSubmitTx (SampleDid.Env false true) SampleDid.tx
    (VObject SampleDid.account) SampleDid.log_to_tx =
    (Err (Foreign "ERROR_TRANSACTION"), SampleDid.log_to_submit) ∧
  createDid (SampleDid.Env false true) SampleDid.account [] =
    (Err (Foreign "ERROR_TRANSACTION"), SampleDid.log_to_submit).
Proof.
  split; [vm_compute; reflexivity |].
  apply (createDid_submit_fails (SampleDid.Env false true) SampleDid.account
           SampleDid.keypairs (VObject SampleDid.api) SampleDid.mnemonic SampleDid.tx
           [] (take 1 SampleDid.log_to_info) (take 2 SampleDid.log_to_info)
           (take 3 SampleDid.log_to_info) SampleDid.log_to_tx);
    vm_compute; reflexivity.
Defined.
